(** * Guru_mobiles: the single-file Flask login application (src/app.py)

    Shallow embedding of the three routes [index], [login] and [logout],
    of the hard-coded credential record [USER], of the session secret set
    at start-up, and of the script the page embeds.

    Python [str] values are lists of Unicode code points ([list N]),
    lone surrogates (U+D800..U+DFFF) included, since [json.loads] produces
    them from escapes such as ["\ud800"].  String literals of the source
    are written as Rocq strings and converted by the coercion [py].

    A request body is described by what [request.get_json(silent=True)]
    makes of it (see [request_body] and [get_json]); the session is the
    cookie-backed key/value record of Flask, a [gmap string (list N)]
    that the client round-trips from one request to the next. *)

From stdpp Require Import base gmap strings list fin_maps pretty.
From Stdlib Require Import ZArith NArith Ascii.

Open Scope Z_scope.

(** ** Python strings *)

(** A Python [str]: its code points. *)
Definition py (s : string) : list N := map N_of_ascii (String.list_ascii_of_string s).
Coercion py : string >-> list.

(** [str.isspace] on one code point (Unicode whitespace: bidirectional
    class WS, B or S, or category Zs). *)
Definition py_isspace (c : N) : bool :=
  ((9 <=? c) && (c <=? 13))%N || ((28 <=? c) && (c <=? 32))%N
  || (c =? 133)%N || (c =? 160)%N || (c =? 5760)%N
  || ((8192 <=? c) && (c <=? 8202))%N
  || (c =? 8232)%N || (c =? 8233)%N || (c =? 8239)%N || (c =? 8287)%N
  || (c =? 12288)%N.

Fixpoint lstrip (s : list N) : list N :=
  match s with
  | [] => []
  | c :: r => if py_isspace c then lstrip r else s
  end.

Fixpoint rstrip (s : list N) : list N :=
  match s with
  | [] => []
  | c :: r =>
      let r' := rstrip r in
      if match r' with [] => true | _ => false end && py_isspace c then [] else c :: r'
  end.

(** [str.strip()] with no argument. *)
Definition str_strip (s : list N) : list N := rstrip (lstrip s).

(** A lone surrogate code point, which [str.encode()] (UTF-8, strict)
    refuses. *)
Definition is_surrogate (c : N) : bool := ((55296 <=? c) && (c <=? 57343))%N.

Definition has_surrogate (s : list N) : bool := existsb is_surrogate s.

(** Python [==] on two [str]. *)
Definition str_eqb (a b : list N) : bool := bool_decide (a = b).

(** ** Python values as parsed from a JSON body *)

#[local] Set Warnings "-register-all".

(** JSON numbers are modelled as integers. *)
Inductive json : Type :=
| JNull
| JBool (b : bool)
| JNum (z : Z)
| JStr (s : list N)
| JArr (l : list json)
| JObj (kvs : list (list N * json)).

(** Python truth value ([bool(v)]) of a parsed JSON value. *)
Definition py_truthy (v : json) : bool :=
  match v with
  | JNull => false
  | JBool b => b
  | JNum z => negb (Z.eqb z 0)
  | JStr s => match s with [] => false | _ => true end
  | JArr l => match l with [] => false | _ => true end
  | JObj kvs => match kvs with [] => false | _ => true end
  end.

(** Nesting of arrays and objects: the depth of recursion the decoder
    enters to build the value. *)
Fixpoint json_depth (v : json) : nat :=
  match v with
  | JArr l =>
      S ((fix go (l : list json) : nat :=
            match l with [] => O | x :: r => Nat.max (json_depth x) (go r) end) l)
  | JObj kvs =>
      S ((fix go (kvs : list (list N * json)) : nat :=
            match kvs with [] => O | (_, x) :: r => Nat.max (json_depth x) (go r) end) kvs)
  | _ => O
  end.

(** [json.loads] keeps the last binding of a duplicated key: a lookup in
    the parsed dict finds the last pair with that key. *)
Fixpoint dict_lookup (kvs : list (list N * json)) (k : list N) : option json :=
  match kvs with
  | [] => None
  | (k', v) :: r =>
      match dict_lookup r k with
      | Some w => Some w
      | None => if str_eqb k k' then Some v else None
      end
  end.

(** [d.get(k, default)] *)
Definition dict_get (kvs : list (list N * json)) (k : list N) (dflt : json) : json :=
  match dict_lookup kvs k with
  | Some v => v
  | None => dflt
  end.

(** Python exceptions that can escape the handlers: attribute lookups
    ([.get], [.strip], [.encode]) on a value of the wrong type, the
    recursion limit hit by the JSON decoder, and the UTF-8 encoding of a
    lone surrogate. *)
Inductive py_exn : Type :=
| AttributeError
| RecursionError
| UnicodeEncodeError.

Inductive result (A : Type) : Type :=
| Ok (a : A)
| Raise (e : py_exn).
Arguments Ok {A} a.
Arguments Raise {A} e.

(** [v.strip()] on an arbitrary value: only [str] has the method. *)
Definition py_strip (v : json) : result (list N) :=
  match v with
  | JStr s => Ok (str_strip s)
  | _ => Raise AttributeError
  end.

(** ** The request body as [request.get_json(silent=True)] sees it

    Flask only decodes a body sent as [application/json].  [json.loads]
    either decodes the text to a value, or rejects it with a [ValueError]
    (a [JSONDecodeError], an integer over the digit limit, an undecodable
    byte sequence) after entering some depth of nested arrays and objects.
    Each array or object it enters costs one level of Python's recursion
    limit; past the [headroom] left when the view calls [get_json], the
    decoder raises [RecursionError], which is not a [ValueError]. *)
Inductive request_body : Type :=
| NotJsonMimetype
| JsonText (v : json)
| BadJsonText (depth : nat).

Definition get_json (headroom : nat) (b : request_body) : result (option json) :=
  match b with
  | NotJsonMimetype => Ok None
  | JsonText v => if (headroom <? json_depth v)%nat then Raise RecursionError else Ok (Some v)
  | BadJsonText d => if (headroom <? d)%nat then Raise RecursionError else Ok None
  end.

(** ** HTTP responses *)

(** A response built by [jsonify(...), status], or an exception escaping
    the view function, which Flask turns into an HTML 500 page. *)
Inductive response : Type :=
| Response (status : Z) (body : json)
| Unhandled (e : py_exn).

Definition http_status (r : response) : Z :=
  match r with
  | Response st _ => st
  | Unhandled _ => 500
  end.

Definition error_response (status : Z) (msg : string) : response :=
  Response status (JObj [(py "error", JStr msg)]).

(** The JSON field [k] of a response body, when it has one. *)
Definition body_field (r : response) (k : string) : option json :=
  match r with
  | Response _ (JObj kvs) => dict_lookup kvs k
  | _ => None
  end.

(** ** Start-up: the session secret

    [app.secret_key = secrets.token_urlsafe(32)]; the process environment
    is passed in to make explicit that the code does not consult it, and
    the random draw of [secrets.token_urlsafe(32)] is an input. *)
Definition app_secret_key (environ : gmap string string) (token_urlsafe_32 : string)
  : string :=
  token_urlsafe_32.

(** ** The application *)

Record user_record : Type := {
  username : list N;
  password_hash : list N
}.

(** The parts of the page rendered by [index] that depend on the session:
    the [display] style of the two panels and the interpolated username. *)
Record page : Type := {
  login_panel_display : list N;
  welcome_panel_display : list N;
  welcome_username : list N
}.

Section App.

(** Werkzeug's [generate_password_hash], and its [check_password_hash] on
    a password whose UTF-8 encoding succeeds, are third-party; they are
    parameters of the application. *)
Variable generate_password_hash : list N -> list N.
Variable check_password_hash_str : list N -> list N -> bool.

(** [check_password_hash(pwhash, password)] on an arbitrary value: the
    hashing starts with [password.encode()], which fails on a non-[str]
    ([AttributeError]) and on a [str] holding a lone surrogate
    ([UnicodeEncodeError]). *)
Definition check_password_hash (pwhash : list N) (password : json) : result bool :=
  match password with
  | JStr p =>
      if has_surrogate p then Raise UnicodeEncodeError
      else Ok (check_password_hash_str pwhash p)
  | _ => Raise AttributeError
  end.

Definition USER : user_record :=
  {| username := "admin"; password_hash := generate_password_hash "password123" |}.

Definition index (session : gmap string (list N)) : page :=
  let logged_in :=
    match session !! "user" with
    | Some u => str_eqb u (username USER)
    | None => false
    end in
  let uname :=
    if logged_in then match session !! "user" with Some u => u | None => [] end
    else [] in
  {| login_panel_display := if logged_in then py "none" else py "block";
     welcome_panel_display := if logged_in then py "block" else py "none";
     welcome_username := uname |}.

Definition login (headroom : nat) (session : gmap string (list N)) (body : request_body)
  : response * gmap string (list N) :=
  match get_json headroom body with
  | Raise e => (Unhandled e, session)
  | Ok None => (error_response 400 "Invalid request body, JSON expected.", session)
  | Ok (Some d) =>
      if negb (py_truthy d)
      then (error_response 400 "Invalid request body, JSON expected.", session)
      else
        match d with
        | JObj kvs =>
            match py_strip (dict_get kvs "username" (JStr [])) with
            | Raise e => (Unhandled e, session)
            | Ok uname =>
                let pw := dict_get kvs "password" (JStr []) in
                if str_eqb uname [] || negb (py_truthy pw)
                then (error_response 400 "Username and password are required.", session)
                else if negb (str_eqb uname (username USER))
                then (error_response 401 "Invalid credentials.", session)
                else
                  match check_password_hash (password_hash USER) pw with
                  | Raise e => (Unhandled e, session)
                  | Ok false => (error_response 401 "Invalid credentials.", session)
                  | Ok true =>
                      (Response 200 (JObj [(py "message", JStr "Logged in");
                                           (py "username", JStr uname)]),
                       <["user" := uname]> session)
                  end
            end
        | _ => (Unhandled AttributeError, session)
        end
  end.


End App.

Definition logout (session : gmap string (list N)) : response * gmap string (list N) :=
  (Response 200 (JObj [(py "message", JStr "Logged out")]), delete "user" session).


(** A field of the body that is absent or holds a string, and its string
    value as read by [data.get(k, "")]. *)
Definition str_or_absent (kvs : list (list N * json)) (k : string) : Prop :=
  match dict_lookup kvs k with
  | None | Some (JStr _) => True
  | Some _ => False
  end.

Definition str_field (kvs : list (list N * json)) (k : string) : list N :=
  match dict_lookup kvs k with
  | Some (JStr x) => x
  | _ => []
  end.

Definition welcome_page (uname : list N) : page :=
  {| login_panel_display := "none"; welcome_panel_display := "block";
     welcome_username := uname |}.

Definition anonymous_page : page :=
  {| login_panel_display := "block"; welcome_panel_display := "none";
     welcome_username := [] |}.

(** An idealised collision-free instance of the verifier, used to run the
    handlers on concrete requests. *)
Definition ideal_generate_password_hash (p : list N) : list N := 36%N :: p.

Definition ideal_check_password_hash (pwhash p : list N) : bool :=
  str_eqb pwhash (ideal_generate_password_hash p).

Definition ilogin := login ideal_generate_password_hash ideal_check_password_hash.
Definition iindex := index ideal_generate_password_hash.

(** The body the page script sends for a username and a password. *)
Definition credentials_body (u p : list N) : request_body :=
  JsonText (JObj [(py "username", JStr u); (py "password", JStr p)]).

(** An illustrative recursion headroom: the default limit of 1000 frames
    less those of the server and framework below the view. *)
Definition sample_headroom : nat := 950.

(** ** The browser side: the script embedded in the page of [index]

    JavaScript strings are sequences of UTF-16 code units. *)

Definition utf16_encode_cp (c : N) : list N :=
  if (65536 <=? c)%N
  then [(55296 + (c - 65536) / 1024)%N; (56320 + (c - 65536) mod 1024)%N]
  else [c].

(** A Python [str] as it reaches the script ([jsonify] escapes it, the
    script's JSON parser reads the escapes back as code units). *)
Definition utf16_encode (s : list N) : list N := flat_map utf16_encode_cp s.

Definition is_high_surrogate (c : N) : bool := ((55296 <=? c) && (c <=? 56319))%N.
Definition is_low_surrogate (c : N) : bool := ((56320 <=? c) && (c <=? 57343))%N.

(** A JavaScript string as it reaches Python through
    [JSON.stringify] and [json.loads]: a surrogate pair becomes one code
    point; a lone surrogate is written as a [\uXXXX] escape and decoded
    as that lone code point. *)
Fixpoint utf16_decode (s : list N) : list N :=
  match s with
  | [] => []
  | c :: r =>
      if is_high_surrogate c then
        match r with
        | c' :: r' =>
            if is_low_surrogate c'
            then (65536 + (c - 55296) * 1024 + (c' - 56320))%N :: utf16_decode r'
            else c :: utf16_decode r
        | [] => [c]
        end
      else c :: utf16_decode r
  end.

(** The state of the page in the browser: the [style.display] of
    [#login-panel] and [#welcome-panel], the [innerHTML] of
    [#welcome-text], the [textContent] of [#ok-msg] and [#error-msg], and
    the values of the [#username] and [#password] inputs. *)
Record dom : Type := {
  login_display : list N;
  welcome_display : list N;
  welcome_html : list N;
  ok_text : list N;
  err_text : list N;
  username_value : list N;
  password_value : list N
}.

Definition with_panels (d : dom) (l w : list N) : dom :=
  {| login_display := l; welcome_display := w; welcome_html := welcome_html d;
     ok_text := ok_text d; err_text := err_text d;
     username_value := username_value d; password_value := password_value d |}.

Definition with_welcome_html (d : dom) (h : list N) : dom :=
  {| login_display := login_display d; welcome_display := welcome_display d;
     welcome_html := h; ok_text := ok_text d; err_text := err_text d;
     username_value := username_value d; password_value := password_value d |}.

Definition with_ok (d : dom) (t : list N) : dom :=
  {| login_display := login_display d; welcome_display := welcome_display d;
     welcome_html := welcome_html d; ok_text := t; err_text := err_text d;
     username_value := username_value d; password_value := password_value d |}.

Definition with_err (d : dom) (t : list N) : dom :=
  {| login_display := login_display d; welcome_display := welcome_display d;
     welcome_html := welcome_html d; ok_text := ok_text d; err_text := t;
     username_value := username_value d; password_value := password_value d |}.

Definition with_username (d : dom) (v : list N) : dom :=
  {| login_display := login_display d; welcome_display := welcome_display d;
     welcome_html := welcome_html d; ok_text := ok_text d; err_text := err_text d;
     username_value := v; password_value := password_value d |}.

Definition with_password (d : dom) (v : list N) : dom :=
  {| login_display := login_display d; welcome_display := welcome_display d;
     welcome_html := welcome_html d; ok_text := ok_text d; err_text := err_text d;
     username_value := username_value d; password_value := v |}.

(** JavaScript string conversion of a parsed JSON value ([String(v)]);
    an array is joined with commas, its null elements printing as empty. *)
Fixpoint js_to_string (v : json) : list N :=
  match v with
  | JNull => "null"
  | JBool true => "true"
  | JBool false => "false"
  | JNum z => py (pretty z)
  | JStr s => utf16_encode s
  | JArr l =>
      (fix join (l : list json) : list N :=
         match l with
         | [] => []
         | [x] => match x with JNull => [] | _ => js_to_string x end
         | x :: r =>
             ((match x with JNull => [] | _ => js_to_string x end) ++ py "," ++ join r)%list
         end) l
  | JObj _ => "[object Object]"
  end.

(** A property value: [None] is [undefined]. *)
Definition js_value_to_string (v : option json) : list N :=
  match v with
  | None => "undefined"
  | Some j => js_to_string j
  end.

Definition js_truthy (v : option json) : bool :=
  match v with
  | None => false
  | Some JNull => false
  | Some (JBool b) => b
  | Some (JNum z) => negb (Z.eqb z 0)
  | Some (JStr s) => match s with [] => false | _ => true end
  | Some (JArr _) | Some (JObj _) => true
  end.

(** [data.k]: [None] when it throws (a property of [null]), otherwise the
    value, [undefined] for a missing property. *)
Definition js_get (data : json) (k : string) : option (option json) :=
  match data with
  | JNull => None
  | JObj kvs => Some (dict_lookup kvs k)
  | _ => Some None
  end.

(** [await res.json()]: the body of a [jsonify] response, or [None] (a
    thrown SyntaxError) for Flask's HTML error page. *)
Definition res_json (r : response) : option json :=
  match r with
  | Response _ body => Some body
  | Unhandled _ => None
  end.

(** [res.ok] *)
Definition res_ok (status : Z) : bool := (200 <=? status) && (status <=? 299).

(** The two lines at the start of both click handlers. *)
Definition clear_msgs (d : dom) : dom := with_err (with_ok d []) [].

(** The body of the login click handler after [fetch('/login', ...)]:
    [fetched] is [None] when [fetch] rejects. *)
Definition on_login_response (d : dom) (fetched : option response) : dom :=
  let d := clear_msgs d in
  match fetched with
  | None => with_err d "Network error."
  | Some r =>
      match res_json r with
      | None => with_err d "Network error."
      | Some data =>
          if res_ok (http_status r) then
            let d1 := with_panels d "none" "block" in
            match js_get data "username" with
            | None => with_err d1 "Network error."
            | Some un =>
                with_ok (with_welcome_html d1
                           (py "Welcome, <strong>" ++ js_value_to_string un
                            ++ py "</strong>!")%list)
                  "Login successful."
            end
          else
            match js_get data "error" with
            | None => with_err d "Network error."
            | Some e =>
                with_err d (if js_truthy e then js_value_to_string e else py "Login failed.")
            end
      end
  end.

(** The body of the logout click handler after [fetch('/logout', ...)]. *)
Definition on_logout_response (d : dom) (fetched : option response) : dom :=
  let d := clear_msgs d in
  match fetched with
  | None => with_err d "Network error."
  | Some r =>
      if res_ok (http_status r) then
        with_password (with_ok (with_panels d "block" "none") "Logged out.") []
      else
        match res_json r with
        | None => with_err d "Network error."
        | Some data =>
            match js_get data "error" with
            | None => with_err d "Network error."
            | Some e =>
                with_err d (if js_truthy e then js_value_to_string e else py "Logout failed.")
            end
        end
  end.

(** The body of [fetch('/login', ...)]: [application/json] with
    [JSON.stringify({ username, password })] of the two input values. *)
Definition login_request (d : dom) : request_body :=
  JsonText (JObj [(py "username", JStr (utf16_decode (username_value d)));
                  (py "password", JStr (utf16_decode (password_value d)))]).

(** Jinja's autoescaping of an interpolated value (markupsafe). *)
Definition html_escape_cp (c : N) : list N :=
  match c with
  | 38%N => "&amp;"
  | 60%N => "&lt;"
  | 62%N => "&gt;"
  | 34%N => "&#34;"
  | 39%N => "&#39;"
  | _ => [c]
  end.

Definition html_escape (s : list N) : list N := flat_map html_escape_cp s.

(** The page as first shown by the browser from the template of [index]. *)
Definition load_page (p : page) : dom :=
  {| login_display := login_panel_display p;
     welcome_display := welcome_panel_display p;
     welcome_html :=
       utf16_encode (py "Welcome, <strong>" ++ html_escape (welcome_username p)
                     ++ py "</strong>!")%list;
     ok_text := []; err_text := [];
     username_value := "admin"; password_value := [] |}.

(** What the user does on the page; a click's flag says whether the
    request reaches the server (otherwise [fetch] rejects). *)
Inductive action : Type :=
| Reload
| TypeUsername (v : list N)
| TypePassword (v : list N)
| ClickLogin (delivered : bool)
| ClickLogout (delivered : bool).

Section Browser.

Variable generate_password_hash : list N -> list N.
Variable check_password_hash_str : list N -> list N -> bool.
Variable headroom : nat.

(** One user action against the server, on the page state and the
    session cookie. *)
Definition browser_step (a : action) (st : dom * gmap string (list N))
  : dom * gmap string (list N) :=
  let (d, s) := st in
  match a with
  | Reload => (load_page (index generate_password_hash s), s)
  | TypeUsername v => (with_username d v, s)
  | TypePassword v => (with_password d v, s)
  | ClickLogin true =>
      let (r, s') :=
        login generate_password_hash check_password_hash_str headroom s (login_request d) in
      (on_login_response d (Some r), s')
  | ClickLogin false => (on_login_response d None, s)
  | ClickLogout true =>
      let (r, s') := logout s in (on_logout_response d (Some r), s')
  | ClickLogout false => (on_logout_response d None, s)
  end.

Definition browser_run (acts : list action) (st : dom * gmap string (list N))
  : dom * gmap string (list N) :=
  fold_left (fun st a => browser_step a st) acts st.

(** The panels shown in the browser are those the server would render
    for the session on a reload. *)
Definition panels_agree (st : dom * gmap string (list N)) : Prop :=
  login_display (fst st) = login_panel_display (index generate_password_hash (snd st)) /\
  welcome_display (fst st) = welcome_panel_display (index generate_password_hash (snd st)).

End Browser.

(** The session's [user] entry is absent or the record's username. *)
Definition session_user_ok (s : gmap string (list N)) : Prop :=
  s !! "user" = None \/ s !! "user" = Some (py "admin").

(** ** Proofs *)

Example strip_ex : str_strip (8195%N :: py " admin" ++ [12288%N; 9%N])%list = "admin".
Proof. reflexivity. Qed.

Example login_ex :
  http_status (fst (ilogin sample_headroom ∅
                      (JsonText (JObj [(py "username", JStr " admin ");
                                       (py "password", JStr "password123")])))) = 200.
Proof. reflexivity. Qed.

Example login_deep_ex :
  http_status (fst (ilogin 2 ∅
                      (JsonText (JObj [(py "username", JStr "admin");
                                       (py "password", JStr "password123");
                                       (py "x", JArr [JArr [JNull]])])))) = 500.
Proof. reflexivity. Qed.

Lemma str_eqb_true (a b : list N) : str_eqb a b = true <-> a = b.
Proof. unfold str_eqb. apply bool_decide_eq_true. Qed.

Lemma str_eqb_false (a b : list N) : str_eqb a b = false <-> a <> b.
Proof. unfold str_eqb. apply bool_decide_eq_false. Qed.


(** Closes a branch of a handler whose status is not 200. *)
Ltac not_200 := let H := fresh in simpl; intro H; discriminate H.

Lemma dict_get_str_nonempty (kvs : list (list N * json)) (k u : list N) :
  dict_get kvs k (JStr []) = JStr u -> u <> [] ->
  dict_lookup kvs k = Some (JStr u).
Proof.
  unfold dict_get. destruct (dict_lookup kvs k) as [v|]; intros H Hu.
  - by subst.
  - by injection H as <-.
Qed.

Lemma get_json_json_text (h : nat) (v : json) :
  (json_depth v <= h)%nat -> get_json h (JsonText v) = Ok (Some v).
Proof.
  intros Hd. unfold get_json.
  destruct (Nat.ltb_spec h (json_depth v)); [lia|done].
Qed.

Section Correctness.

Variable generate_password_hash : list N -> list N.
Variable check_password_hash_str : list N -> list N -> bool.

(** The contract of a salted one-way verifier: a hash verifies exactly the
    password it was generated from (among the passwords that can be
    encoded at all). *)
Hypothesis check_password_hash_correct :
  forall p q, has_surrogate q = false ->
  check_password_hash_str (generate_password_hash p) q = true <-> q = p.

Local Abbreviation login := (login generate_password_hash check_password_hash_str).
Local Abbreviation USER := (USER generate_password_hash).

(** The only way [login] answers 200. *)
Lemma login_200_inv (h : nat) (s : gmap string (list N)) (body : request_body) :
  http_status (fst (login h s body)) = 200 ->
  exists kvs u p,
    body = JsonText (JObj kvs) /\ (json_depth (JObj kvs) <= h)%nat /\
    dict_lookup kvs "username" = Some (JStr u) /\ str_strip u = "admin" /\
    dict_lookup kvs "password" = Some (JStr p) /\ has_surrogate p = false /\
    check_password_hash_str (generate_password_hash "password123") p = true /\
    login h s body = (Response 200 (JObj [(py "message", JStr "Logged in");
                                          (py "username", JStr "admin")]),
                      <["user" := py "admin"]> s).
Proof.
  unfold login, get_json, py_strip, check_password_hash.
  destruct body as [|v|dd].
  - not_200.
  - destruct (Nat.ltb_spec h (json_depth v)) as [Hdep|Hdep]; [not_200|].
    destruct (py_truthy v) eqn:Hv; [|not_200]. cbn [negb].
    destruct v as [| | | |l|kvs]; try not_200.
    destruct (dict_get kvs "username" (JStr [])) as [| | |u| |] eqn:Hu; try not_200.
    destruct (str_eqb (str_strip u) []) eqn:He; [not_200|].
    destruct (py_truthy (dict_get kvs "password" (JStr []))) eqn:Hp; [|not_200].
    cbn [orb negb].
    destruct (str_eqb (str_strip u) (username USER)) eqn:Ha; [|not_200]. cbn [negb].
    apply str_eqb_true in Ha. apply str_eqb_false in He.
    destruct (dict_get kvs "password" (JStr [])) as [| | |p| |] eqn:Hpw; try not_200.
    destruct (has_surrogate p) eqn:Hsur; [not_200|].
    destruct (check_password_hash_str (password_hash USER) p) eqn:Hc; [|not_200].
    intros _. exists kvs, u, p. rewrite Ha.
    split; [done|]. split; [done|]. split.
    { apply dict_get_str_nonempty; [done|]. intros ->. vm_compute in Ha. discriminate. }
    split; [done|]. split.
    { apply dict_get_str_nonempty; [done|]. intros ->. discriminate. }
    done.
  - destruct (h <? dd)%nat; not_200.
Qed.


Lemma login_non_200_session (h : nat) (s : gmap string (list N)) (body : request_body) :
  http_status (fst (login h s body)) <> 200 -> snd (login h s body) = s.
Proof.
  unfold login. repeat case_match; simpl; intros Hst; done.
Qed.

(** ** C1 *)


(** ** C2 *)


(** ** C3 *)

(** C3: after a successful POST /login the page rendered for the same
    session is the welcome view showing "admin"; after a POST /logout on
    that session it is the anonymous login view. The welcome panel is
    shown exactly when the session's user is the record's username. *)
Theorem index_reflects_login_logout (h : nat) (s : gmap string (list N))
    (body : request_body) :
  http_status (fst (login h s body)) = 200 ->
  index generate_password_hash (snd (login h s body)) = welcome_page "admin" /\
  index generate_password_hash (snd (logout (snd (login h s body)))) = anonymous_page /\
  (forall s' : gmap string (list N),
     welcome_panel_display (index generate_password_hash s') = "block" <->
     s' !! "user" = Some (username USER)).
Proof.
  intros H.
  destruct (login_200_inv h s body H) as (kvs & u & p & _ & _ & _ & _ & _ & _ & _ & ->).
  split; [|split].
  - unfold index. cbn [snd]. by rewrite lookup_insert_eq.
  - unfold index, logout. cbn [snd]. by rewrite lookup_delete_eq.
  - intros s'. unfold index.
    destruct (s' !! "user") as [v|]; [|split; [intros Hx; discriminate Hx|done]].
    destruct (str_eqb v (username USER)) eqn:E; cbn [welcome_panel_display].
    + apply str_eqb_true in E. by subst.
    + apply str_eqb_false in E. split; [intros Hx; discriminate Hx|]. by intros [= ->].
Qed.

(** ** C4 *)


(** ** C5 *)

(** C5: POST /logout always answers 200 {message: "Logged out"}, leaves no
    "user" entry in the session, and a second call gives the same response
    and the same session as the first. *)
Theorem logout_total_idempotent (s : gmap string (list N)) :
  logout s = (Response 200 (JObj [(py "message", JStr "Logged out")]), delete "user" s) /\
  snd (logout s) !! "user" = None /\
  logout (snd (logout s)) = logout s.
Proof.
  split; [done|]. split.
  - apply lookup_delete_eq.
  - unfold logout. cbn [snd]. by rewrite delete_delete_eq.
Qed.

(** ** C6 *)

(** C6 (failing input): a body {"username": 5} has no password field, yet
    [login] does not answer 400: [(5).strip()] raises and the request ends
    in a 500. *)
Theorem login_missing_password_crashes (h : nat) (s : gmap string (list N)) :
  login (S h) s (JsonText (JObj [(py "username", JNum 5)])) = (Unhandled AttributeError, s) /\
  http_status (fst (login (S h) s (JsonText (JObj [(py "username", JNum 5)])))) = 500.
Proof. split; reflexivity. Qed.

(** ** C7 *)

(** C7 (failing input): a body sent as JSON that is not valid JSON but
    nests deeper than the recursion headroom, such as ["[" * 2000], makes
    [json.loads] raise [RecursionError]; [get_json(silent=True)] only
    catches [ValueError], so the request ends in a 500, not a 400. Invalid
    JSON within the headroom, and a body not sent as JSON, do get the 400
    JSON error. *)
Theorem login_deep_invalid_json_crashes (h d : nat) (s : gmap string (list N)) :
  login h s (BadJsonText (S h + d)) = (Unhandled RecursionError, s) /\
  http_status (fst (login h s (BadJsonText (S h + d)))) = 500 /\
  login h s (BadJsonText (Nat.min d h)) =
    (error_response 400 "Invalid request body, JSON expected.", s) /\
  login h s NotJsonMimetype = (error_response 400 "Invalid request body, JSON expected.", s).
Proof.
  unfold login, get_json.
  rewrite (proj2 (Nat.ltb_lt h (S h + d)) ltac:(lia)).
  rewrite (proj2 (Nat.ltb_ge h (Nat.min d h)) ltac:(lia)).
  split; [|split; [|split]]; reflexivity.
Qed.

(** ** C8 *)

(** C8 (failing inputs): the JSON array [1], the object
    {"username": "admin", "password": 5} and the object
    {"username": "admin", "password": "\ud800"} are well-formed bodies on
    which [login] raises ([list.get], [int.encode], the UTF-8 encoding of
    a lone surrogate), i.e. a 500 instead of a 4xx JSON error. *)
Theorem login_ill_typed_body_crashes (h : nat) (s : gmap string (list N)) :
  login (S h) s (JsonText (JArr [JNum 1])) = (Unhandled AttributeError, s) /\
  login (S h) s (JsonText (JObj [(py "username", JStr "admin"); (py "password", JNum 5)])) =
    (Unhandled AttributeError, s) /\
  login (S h) s (JsonText (JObj [(py "username", JStr "admin");
                                 (py "password", JStr [55296%N])])) =
    (Unhandled UnicodeEncodeError, s) /\
  http_status (fst (login (S h) s (JsonText (JArr [JNum 1])))) = 500.
Proof. split; [|split; [|split]]; reflexivity. Qed.

(** ** C10 *)

(** C10: a POST /login that does not answer 200 returns the session it
    was given: no error path writes to it. *)
Theorem login_failure_keeps_session (h : nat) (s : gmap string (list N))
    (body : request_body) :
  http_status (fst (login h s body)) <> 200 -> snd (login h s body) = s.
Proof. apply login_non_200_session. Qed.

End Correctness.

(** ** C9 *)

(** C9 (amended): the session secret is the random token drawn at start-up
    by [secrets.token_urlsafe(32)], whatever the environment: no variable
    of the environment is read. *)
Theorem secret_key_ignores_environ (env1 env2 : gmap string string) (tok : string) :
  app_secret_key env1 tok = tok /\ app_secret_key env1 tok = app_secret_key env2 tok.
Proof. split; reflexivity. Qed.

(** ** Witnesses, on the idealised verifier and concrete requests *)


Lemma index_reflects_login_logout_witness :
  http_status (fst (ilogin sample_headroom ∅ (credentials_body "admin" "password123"))) = 200 /\
  (iindex (snd (ilogin sample_headroom ∅ (credentials_body "admin" "password123"))) =
     welcome_page "admin" /\
   iindex (snd (logout (snd (ilogin sample_headroom ∅
                              (credentials_body "admin" "password123"))))) =
     anonymous_page /\
   (forall s' : gmap string (list N),
      welcome_panel_display (iindex s') = "block" <->
      s' !! "user" = Some (username (USER ideal_generate_password_hash)))).
Proof.
  assert (H : http_status (fst (ilogin sample_headroom ∅
                                  (credentials_body "admin" "password123"))) = 200)
    by reflexivity.
  split; [exact H|].
  exact (index_reflects_login_logout ideal_generate_password_hash ideal_check_password_hash
           sample_headroom ∅ _ H).
Defined.


Lemma login_failure_keeps_session_witness :
  http_status (fst (ilogin sample_headroom {[ "user" := py "admin" ]}
                      (credentials_body "bob" "x"))) <> 200 /\
  snd (ilogin sample_headroom {[ "user" := py "admin" ]} (credentials_body "bob" "x")) =
    {[ "user" := py "admin" ]}.
Proof.
  assert (H : http_status (fst (ilogin sample_headroom {[ "user" := py "admin" ]}
                                  (credentials_body "bob" "x"))) <> 200)
    by (vm_compute; discriminate).
  split; [exact H|].
  exact (login_failure_keeps_session ideal_generate_password_hash ideal_check_password_hash
           sample_headroom _ _ H).
Defined.

(** ** Counterexamples *)




(** C9 as stated: no environment variable fixes the secret. *)
Lemma secret_key_not_from_environ :
  ~ exists var : string,
      forall (environ : gmap string string) (tok v : string),
        environ !! var = Some v -> app_secret_key environ tok = v.
Proof.
  intros [var H].
  specialize (H {[ var := "fixed" ]} "random" "fixed" (lookup_singleton_eq _ _)).
  discriminate H.
Qed.

(** ** Further properties of the handlers and of the page script *)







Section Extras.

Variable generate_password_hash : list N -> list N.
Variable check_password_hash_str : list N -> list N -> bool.

Local Abbreviation login := (login generate_password_hash check_password_hash_str).
Local Abbreviation browser_step := (browser_step generate_password_hash check_password_hash_str).
Local Abbreviation browser_run := (browser_run generate_password_hash check_password_hash_str).

Lemma login_cases (h : nat) (s : gmap string (list N)) (body : request_body) :
  fst (login h s body) =
    Response 200 (JObj [(py "message", JStr "Logged in"); (py "username", JStr "admin")]) \/
  (exists e, fst (login h s body) = Unhandled e) \/
  fst (login h s body) = error_response 400 "Invalid request body, JSON expected." \/
  fst (login h s body) = error_response 400 "Username and password are required." \/
  fst (login h s body) = error_response 401 "Invalid credentials.".
Proof.
  destruct (decide (http_status (fst (login h s body)) = 200)) as [H|H].
  - left.
    destruct (login_200_inv _ _ h s body H) as (_ & _ & _ & _ & _ & _ & _ & _ & _ & _ & ->).
    done.
  - revert H. unfold login. repeat case_match; simpl; intros Hst;
      try (right; left; eexists; reflexivity); tauto.
Qed.

Lemma login_no_raise (h : nat) (s : gmap string (list N)) (kvs : list (list N * json))
    (e : py_exn) :
  (json_depth (JObj kvs) <= h)%nat ->
  str_or_absent kvs "username" -> str_or_absent kvs "password" ->
  has_surrogate (str_field kvs "password") = false ->
  fst (login h s (JsonText (JObj kvs))) <> Unhandled e.
Proof.
  intros Hd. unfold login. rewrite get_json_json_text by exact Hd.
  destruct kvs as [|kv kvs']; [done|].
  unfold str_or_absent, str_field, dict_get, py_strip, check_password_hash.
  destruct (dict_lookup (kv :: kvs') "username") as [[| | |u| |]|];
    try contradiction; intros _;
  destruct (dict_lookup (kv :: kvs') "password") as [[| | |p| |]|];
    try contradiction; intros _ Hsur;
  cbn [py_truthy negb orb]; rewrite ?Hsur; repeat case_match; done.
Qed.

Lemma login_session_cases (h : nat) (s : gmap string (list N)) (body : request_body) :
  snd (login h s body) = s \/ snd (login h s body) = <["user" := py "admin"]> s.
Proof.
  destruct (decide (http_status (fst (login h s body)) = 200)) as [H|H].
  - right.
    by destruct (login_200_inv _ _ h s body H) as (_ & _ & _ & _ & _ & _ & _ & _ & _ & _ & ->).
  - left. by apply login_non_200_session.
Qed.

Lemma index_insert_admin (s : gmap string (list N)) :
  index generate_password_hash (<["user" := py "admin"]> s) = welcome_page "admin".
Proof. unfold index. by rewrite lookup_insert_eq. Qed.

Lemma index_delete_user (s : gmap string (list N)) :
  index generate_password_hash (delete "user" s) = anonymous_page.
Proof. unfold index. by rewrite lookup_delete_eq. Qed.


(** [login] answers one of: the 200 success body, one of its three JSON
    errors with its status (400 for an invalid body or missing
    credentials, 401 for invalid credentials), or an exception (500). *)
Theorem login_response_cases (h : nat) (s : gmap string (list N)) (body : request_body) :
  fst (login h s body) =
    Response 200 (JObj [(py "message", JStr "Logged in"); (py "username", JStr "admin")]) \/
  (exists e, fst (login h s body) = Unhandled e) \/
  fst (login h s body) = error_response 400 "Invalid request body, JSON expected." \/
  fst (login h s body) = error_response 400 "Username and password are required." \/
  fst (login h s body) = error_response 401 "Invalid credentials.".
Proof. apply login_cases. Qed.

(** A body sent as JSON that decodes within the recursion headroom to an
    object whose username and password fields are each absent or a
    string, the password holding no lone surrogate, never makes [login]
    raise. *)
Theorem login_string_fields_no_crash
    (h : nat) (s : gmap string (list N)) (kvs : list (list N * json)) (e : py_exn) :
  (json_depth (JObj kvs) <= h)%nat ->
  str_or_absent kvs "username" -> str_or_absent kvs "password" ->
  has_surrogate (str_field kvs "password") = false ->
  fst (login h s (JsonText (JObj kvs))) <> Unhandled e.
Proof. apply login_no_raise. Qed.

(** [login] does not change any session entry other than [user]. *)
Theorem login_preserves_other_keys (h : nat) (s : gmap string (list N)) (body : request_body)
    (k : string) :
  k <> "user" -> snd (login h s body) !! k = s !! k.
Proof.
  intros Hk. destruct (login_session_cases h s body) as [-> | ->]; [done|].
  by rewrite lookup_insert_ne.
Qed.

(** Every page [index] renders is one of two: the welcome view naming
    "admin", or the anonymous view with an empty name; the two panels are
    never both shown, and no other session value reaches the page. *)
Theorem index_two_views (s : gmap string (list N)) :
  index generate_password_hash s = welcome_page "admin" \/
  index generate_password_hash s = anonymous_page.
Proof.
  unfold index. destruct (s !! "user") as [v|]; [|by right].
  destruct (str_eqb v (username (USER generate_password_hash))) eqn:E; [left|by right].
  apply str_eqb_true in E. by subst.
Qed.


Lemma browser_step_panels (h : nat) (a : action) (st : dom * gmap string (list N)) :
  panels_agree generate_password_hash st ->
  panels_agree generate_password_hash (browser_step h a st).
Proof.
  destruct st as [d s]. unfold panels_agree. cbn [fst snd]. intros [Hl Hw].
  destruct a as [| v | v | [] | []]; unfold browser_step.
  - done.
  - done.
  - done.
  - destruct (login h s (login_request d)) as [r s'] eqn:E. cbn [fst snd].
    destruct (decide (http_status r = 200)) as [H|H].
    + assert (H' : http_status (fst (login h s (login_request d))) = 200) by by rewrite E.
      destruct (login_200_inv _ _ h s _ H')
        as (_ & _ & _ & _ & _ & _ & _ & _ & _ & _ & Heq).
      rewrite Heq in E. injection E as <- <-.
      by rewrite index_insert_admin.
    + assert (H' : http_status (fst (login h s (login_request d))) <> 200) by by rewrite E.
      pose proof (login_non_200_session _ _ h s _ H') as Hs. rewrite E in Hs.
      cbn [snd] in Hs. subst s'.
      destruct (login_cases h s (login_request d)) as [Hr|[[e Hr]|[Hr|[Hr|Hr]]]];
        rewrite E in Hr; cbn [fst] in Hr; subst r; cbn in *; done.
  - done.
  - unfold logout. cbn [fst snd]. by rewrite index_delete_user.
  - done.
Qed.

(** In the browser, after a reload and any sequence of typing and clicks
    (delivered to the server or not), the panel the page shows is the one
    the server would render for the session cookie on a reload. *)
Theorem browser_panels_agree (h : nat) (d0 : dom) (s0 : gmap string (list N))
    (acts : list action) :
  panels_agree generate_password_hash (browser_run h acts (browser_step h Reload (d0, s0))).
Proof.
  assert (Hinv : forall st, panels_agree generate_password_hash st ->
                 panels_agree generate_password_hash (browser_run h acts st)).
  { induction acts as [|a acts IH]; intros st Hst; [exact Hst|].
    apply IH. by apply browser_step_panels. }
  apply Hinv. unfold panels_agree. by split.
Qed.

(** Starting from a session whose [user] entry is absent or "admin", no
    sequence of page actions ever stores another value under [user]. *)
Theorem browser_session_user_ok (h : nat) (d0 : dom) (s0 : gmap string (list N))
    (acts : list action) :
  session_user_ok s0 -> session_user_ok (snd (browser_run h acts (d0, s0))).
Proof.
  revert d0 s0. induction acts as [|a acts IH]; intros d0 s0 Hs; [exact Hs|].
  unfold browser_run; cbn [fold_left].
  destruct (browser_step h a (d0, s0)) as [d1 s1] eqn:E.
  apply (IH d1 s1). clear IH.
  destruct a as [| v | v | [] | []]; unfold browser_step in E;
    try (injection E as _ <-; exact Hs).
  - destruct (login h s0 (login_request d0)) as [r s'] eqn:El. injection E as _ <-.
    destruct (login_session_cases h s0 (login_request d0)) as [Hs'|Hs'];
      rewrite El in Hs'; cbn [snd] in Hs'; subst s'; [exact Hs|].
    right. apply lookup_insert_eq.
  - injection E as _ <-. left. apply lookup_delete_eq.
Qed.

(** A login click that reaches the server, with a recursion headroom of
    at least one level and a password input whose value holds no lone
    surrogate, never shows "Network error." or the fallback "Login
    failed.": the page shows the server's [error] message (and no [ok]
    message) on a refusal, and "Login successful." with an empty error
    line exactly when the server answered 200. *)
Theorem browser_login_click_messages (h : nat) (d : dom) (s : gmap string (list N)) :
  has_surrogate (utf16_decode (password_value d)) = false ->
  err_text (on_login_response d (Some (fst (login (S h) s (login_request d))))) =
    match body_field (fst (login (S h) s (login_request d))) "error" with
    | Some (JStr m) => utf16_encode m
    | _ => []
    end /\
  (ok_text (on_login_response d (Some (fst (login (S h) s (login_request d))))) =
     "Login successful." <->
   http_status (fst (login (S h) s (login_request d))) = 200).
Proof.
  intros Hsur.
  destruct (login_cases (S h) s (login_request d)) as [Hr|[[e Hr]|[Hr|[Hr|Hr]]]].
  - rewrite Hr. split; [reflexivity|]. split; reflexivity.
  - exfalso.
    refine (login_no_raise (S h) s [(py "username", JStr (utf16_decode (username_value d)));
                                    (py "password", JStr (utf16_decode (password_value d)))]
              e _ I I Hsur Hr).
    cbn. lia.
  - rewrite Hr. split; [reflexivity|]. split; intros Hx; discriminate Hx.
  - rewrite Hr. split; [reflexivity|]. split; intros Hx; discriminate Hx.
  - rewrite Hr. split; [reflexivity|]. split; intros Hx; discriminate Hx.
Qed.


(** After a successful login click the welcome text written by the script
    is the text the server renders for the new session on a reload,
    "Welcome, <strong>admin</strong>!". *)
Theorem browser_login_welcome_text (h : nat) (d : dom) (s : gmap string (list N)) :
  http_status (fst (login h s (login_request d))) = 200 ->
  welcome_html (on_login_response d (Some (fst (login h s (login_request d))))) =
    welcome_html (load_page (index generate_password_hash (snd (login h s (login_request d))))) /\
  welcome_html (on_login_response d (Some (fst (login h s (login_request d))))) =
    "Welcome, <strong>admin</strong>!".
Proof.
  intros H.
  destruct (login_200_inv _ _ h s _ H) as (_ & _ & _ & _ & _ & _ & _ & _ & _ & _ & ->).
  cbn [fst snd]. rewrite index_insert_admin. split; reflexivity.
Qed.

(** A logout click that reaches the server always takes the script's
    success branch: the login panel is shown, the welcome panel hidden,
    "Logged out." is shown with an empty error line, the password input is
    cleared, the username input is kept, and the session has no [user]. *)
Theorem browser_logout_click (h : nat) (d : dom) (s : gmap string (list N)) :
  let st := browser_step h (ClickLogout true) (d, s) in
  login_display (fst st) = "block" /\ welcome_display (fst st) = "none" /\
  ok_text (fst st) = "Logged out." /\ err_text (fst st) = [] /\
  password_value (fst st) = [] /\ username_value (fst st) = username_value d /\
  snd st !! "user" = None.
Proof.
  cbn. repeat split. apply lookup_delete_eq.
Qed.

End Extras.

(** Witnesses of the further properties *)

Lemma login_preserves_other_keys_witness :
  "theme" <> "user" /\
  snd (ilogin sample_headroom {[ "theme" := py "dark" ]}
         (credentials_body "admin" "password123")) !! "theme" =
    ({[ "theme" := py "dark" ]} : gmap string (list N)) !! "theme".
Proof.
  assert (Hk : "theme" <> "user") by discriminate.
  split; [exact Hk|].
  exact (login_preserves_other_keys ideal_generate_password_hash ideal_check_password_hash
           sample_headroom {[ "theme" := py "dark" ]} _ "theme" Hk).
Defined.

Lemma login_string_fields_no_crash_witness :
  (json_depth (JObj [(py "username", JStr "admin")]) <= sample_headroom)%nat /\
  str_or_absent [(py "username", JStr "admin")] "username" /\
  str_or_absent [(py "username", JStr "admin")] "password" /\
  has_surrogate (str_field [(py "username", JStr "admin")] "password") = false /\
  fst (ilogin sample_headroom ∅ (JsonText (JObj [(py "username", JStr "admin")]))) <>
    Unhandled AttributeError.
Proof.
  assert (Hd : (json_depth (JObj [(py "username", JStr "admin")]) <= sample_headroom)%nat)
    by (vm_compute; lia).
  assert (Hsur : has_surrogate (str_field [(py "username", JStr "admin")] "password") = false)
    by reflexivity.
  split; [exact Hd|]. split; [exact I|]. split; [exact I|]. split; [exact Hsur|].
  exact (login_string_fields_no_crash ideal_generate_password_hash ideal_check_password_hash
           sample_headroom ∅ [(py "username", JStr "admin")] AttributeError Hd I I Hsur).
Defined.


Lemma browser_session_user_ok_witness :
  session_user_ok ∅ /\
  session_user_ok
    (snd (browser_run ideal_generate_password_hash ideal_check_password_hash sample_headroom
            [TypePassword "password123"; ClickLogin true; Reload; ClickLogout true]
            (load_page (iindex ∅), ∅))).
Proof.
  assert (H0 : session_user_ok ∅) by (left; reflexivity).
  split; [exact H0|].
  exact (browser_session_user_ok ideal_generate_password_hash ideal_check_password_hash
           sample_headroom (load_page (iindex ∅)) ∅ _ H0).
Defined.

Lemma browser_login_click_messages_witness :
  has_surrogate (utf16_decode (password_value (with_password (load_page (iindex ∅))
                                                "hunter2"))) = false /\
  err_text (on_login_response (with_password (load_page (iindex ∅)) "hunter2")
     (Some (fst (ilogin (S sample_headroom) ∅
                   (login_request (with_password (load_page (iindex ∅)) "hunter2")))))) =
    match body_field (fst (ilogin (S sample_headroom) ∅
             (login_request (with_password (load_page (iindex ∅)) "hunter2")))) "error" with
    | Some (JStr m) => utf16_encode m
    | _ => []
    end /\
  (ok_text (on_login_response (with_password (load_page (iindex ∅)) "hunter2")
     (Some (fst (ilogin (S sample_headroom) ∅
                   (login_request (with_password (load_page (iindex ∅)) "hunter2")))))) =
     "Login successful." <->
   http_status (fst (ilogin (S sample_headroom) ∅
                       (login_request (with_password (load_page (iindex ∅)) "hunter2")))) = 200).
Proof.
  assert (Hsur : has_surrogate (utf16_decode (password_value
                   (with_password (load_page (iindex ∅)) "hunter2"))) = false)
    by reflexivity.
  split; [exact Hsur|].
  exact (browser_login_click_messages ideal_generate_password_hash ideal_check_password_hash
           sample_headroom (with_password (load_page (iindex ∅)) "hunter2") ∅ Hsur).
Defined.

Lemma browser_login_welcome_text_witness :
  http_status (fst (ilogin sample_headroom ∅
                      (login_request (with_password (load_page (iindex ∅)) "password123"))))
    = 200 /\
  welcome_html (on_login_response (with_password (load_page (iindex ∅)) "password123")
     (Some (fst (ilogin sample_headroom ∅
                   (login_request (with_password (load_page (iindex ∅)) "password123")))))) =
    welcome_html (load_page (iindex (snd (ilogin sample_headroom ∅
       (login_request (with_password (load_page (iindex ∅)) "password123")))))) /\
  welcome_html (on_login_response (with_password (load_page (iindex ∅)) "password123")
     (Some (fst (ilogin sample_headroom ∅
                   (login_request (with_password (load_page (iindex ∅)) "password123")))))) =
    "Welcome, <strong>admin</strong>!".
Proof.
  assert (H : http_status (fst (ilogin sample_headroom ∅
                 (login_request (with_password (load_page (iindex ∅)) "password123")))) = 200)
    by reflexivity.
  split; [exact H|].
  exact (browser_login_welcome_text ideal_generate_password_hash ideal_check_password_hash
           sample_headroom (with_password (load_page (iindex ∅)) "password123") ∅ H).
Defined.
